(** * k8sutils, package [exec]: remote command execution in a pod

    A shallow embedding of [pkg/exec/client.go] and [pkg/exec/exec.go].

    The package is a thin layer over client-go: it reads the client's
    configuration, builds a request, and calls into the library.  The
    embedding therefore has three parts:

    - the Go values the package handles (errors with pointer identity,
      durations, interface values that may be nil);
    - the client-go surface the package calls.  Nothing of client-go is in
      this repository, so none of its behaviour is assumed: request
      builders are kept as the list of builder calls made, constructors as
      the arguments they were given, and every call that talks to the
      cluster answers through a [Library] of oracles and is recorded in a
      trace;
    - the package itself, written in a state monad over a [World] that
      holds the [ClientOpt] the receiver points to, the allocator and the
      trace of library calls. *)

From Stdlib Require Import String Ascii List ZArith NArith Bool Lia.
From ExtLib Require Import Structures.Monad Structures.MonadState.
From ExtLib Require Import Data.Monads.StateMonad.
Import ListNotations.
Import MonadNotation.

Local Open Scope list_scope.
Local Open Scope string_scope.
Local Open Scope monad_scope.

(** ** Go values *)

(** [time.Duration] is an [int64] count of nanoseconds.  The package only
    forwards durations and multiplies two constants, so no wrap-around
    arises. *)
Module time.
Definition Duration := Z.
Definition Nanosecond : Duration := 1%Z.
Definition Second : Duration := (1000000000 * Nanosecond)%Z.
End time.

(** Heap addresses: the identity of a value reached through a pointer. *)
Definition ptr := N.

(** The two concrete error types of this package's errors:
    [*errors.errorString] (built by [fmt.Errorf] without [%w]) and
    [*fmt.wrapError] (built by [fmt.Errorf] with one [%w]).  Both are
    pointers, so [==] compares addresses.  Errors returned by client-go are
    values of the same interface; they are taken to be of these shapes. *)
Inductive error : Type :=
| errorString (p : ptr) (s : string)
| wrapError (p : ptr) (msg : string) (err : error).

(** A Go function result [(T, error)]: the value when the error is nil. *)
Inductive result (A : Type) : Type :=
| Ok (a : A)
| Err (e : error).
Arguments Ok {A} a.
Arguments Err {A} e.

Module errors.

(** [err.Error()]. *)
Definition Error (e : error) : string :=
  match e with
  | errorString _ s => s
  | wrapError _ msg _ => msg
  end.

(** [errors.Unwrap(err)]. *)
Definition Unwrap (e : error) : option error :=
  match e with
  | errorString _ _ => None
  | wrapError _ _ err => Some err
  end.

(** [err == target] on two non-nil error values: same dynamic type and
    same pointer. *)
Definition eqb (a b : error) : bool :=
  match a, b with
  | errorString p _, errorString q _ => N.eqb p q
  | wrapError p _ _, wrapError q _ _ => N.eqb p q
  | _, _ => false
  end.

(** [errors.Is(err, target)]: walks the [Unwrap] chain of [err] looking
    for [target].  Neither error type defines an [Is] method. *)
Fixpoint Is (err target : error) : bool :=
  eqb err target
  || match err with
     | errorString _ _ => false
     | wrapError _ _ inner => Is inner target
     end.

End errors.

Module strings.

(** [strings.Join(elems, sep)]. *)
Definition Join (elems : list string) (sep : string) : string :=
  String.concat sep elems.

(** [strings.Contains(s, substr)], as a proposition. *)
Definition Contains (s substr : string) : Prop :=
  exists pre post, s = pre ++ substr ++ post.

End strings.

(** [io.Reader] and [io.Writer] values.  An argument of interface type is
    [None] when it is the nil interface. *)
Module io.
Inductive Reader : Type := reader (fd : N).
Inductive Writer : Type := writer (fd : N).
End io.

(** Go's [x != nil] on an interface value. *)
Definition notNil {A : Type} (x : option A) : bool :=
  match x with
  | Some _ => true
  | None => false
  end.

(** ** The client-go surface *)

Module http.
(** A proxy function (the type of [rest.Config.Proxy] and of
    [http.ProxyFromEnvironment]), known by which function it is. *)
Inductive ProxyFunc : Type :=
| ProxyFromEnvironment
| proxyFunc (id : N).
(** An [http.RoundTripper] built by the library. *)
Inductive RoundTripper : Type := roundTripper (id : N).
End http.

Module tls.
(** A TLS configuration built by the library. *)
Inductive Config : Type := config (id : N).
End tls.

Module context.
(** Contexts, as the calls that derived them. *)
Inductive Context : Type :=
| Background
| WithTimeout (parent : Context) (timeout : time.Duration).
End context.

Module metav1.
Inductive CreateOptions : Type := CreateOptions0.
End metav1.

Module scheme.
Inductive Codec : Type := ParameterCodec.
End scheme.

(** [corev1.PodExecOptions], the fields the package sets. *)
Module corev1.
Record PodExecOptions : Type := {
  Stdin : bool;
  Stdout : bool;
  Stderr : bool;
  TTY : bool;
  Container : string;
  Command : list string
}.
End corev1.

(** [authzv1.SelfSubjectAccessReview], the fields the package sets or
    reads.  Fields the package leaves out of a literal hold Go's zero
    value. *)
Module authzv1.
Record ResourceAttributes : Type := {
  Namespace : string;
  Verb : string;
  Group : string;
  Resource : string;
  Subresource : string;
  Name : string
}.
Record SelfSubjectAccessReviewSpec : Type := {
  ResourceAttributes_ : option ResourceAttributes
}.
Record SubjectAccessReviewStatus : Type := {
  Allowed : bool;
  Reason : string
}.
Record SelfSubjectAccessReview : Type := {
  Spec : SelfSubjectAccessReviewSpec;
  Status : SubjectAccessReviewStatus
}.
Definition zeroStatus : SubjectAccessReviewStatus :=
  {| Allowed := false; Reason := "" |}.
End authzv1.

(** [rest.Config] and the [rest.Request] builder.  A request is the verb
    it was created with and the builder calls made on it, oldest first;
    what client-go makes of them is not modelled. *)
Module rest.
Record Config : Type := {
  Host : string;
  Proxy : option http.ProxyFunc
}.

Inductive BuilderCall : Type :=
| CallResource (resource : string)
| CallNamespace (namespace : string)
| CallName (resourceName : string)
| CallSubResource (subresources : list string)
| CallTimeout (d : time.Duration)
| CallVersionedParams (obj : corev1.PodExecOptions) (codec : scheme.Codec).

Record Request : Type := {
  verb : string;
  built : list BuilderCall
}.

Definition on (call : BuilderCall) (r : Request) : Request :=
  {| verb := verb r; built := built r ++ [call] |}.

Definition Post : Request := {| verb := "POST"; built := [] |}.
Definition Resource (resource : string) := on (CallResource resource).
Definition Namespace (namespace : string) := on (CallNamespace namespace).
Definition Name (resourceName : string) := on (CallName resourceName).
Definition SubResource (subresources : list string) :=
  on (CallSubResource subresources).
Definition Timeout (d : time.Duration) := on (CallTimeout d).
Definition VersionedParams (obj : corev1.PodExecOptions) (codec : scheme.Codec) :=
  on (CallVersionedParams obj codec).

(** The URL rendered by [r.URL()]: known by the request it renders. *)
Inductive URL : Type := URLOf (r : Request).

(** What was last given to each builder method. *)
Definition lastOf {A : Type} (pick : BuilderCall -> option A) (r : Request)
  : option A :=
  fold_left (fun acc call => match pick call with Some a => Some a | None => acc end)
            (built r) None.

Definition namespaceOf : Request -> option string :=
  lastOf (fun call => match call with CallNamespace s => Some s | _ => None end).
Definition nameOf : Request -> option string :=
  lastOf (fun call => match call with CallName s => Some s | _ => None end).
Definition paramsOf : Request -> option corev1.PodExecOptions :=
  lastOf (fun call => match call with CallVersionedParams o _ => Some o | _ => None end).
End rest.

(** [spdy.RoundTripperConfig], the fields the package sets, and the round
    tripper built from one, known by the configuration it was given. *)
Module spdy.
Record RoundTripperConfig : Type := {
  TLS : option tls.Config;
  FollowRedirects : bool;
  RequireSameHostRedirects : bool;
  Proxier : http.ProxyFunc;
  PingPeriod : time.Duration
}.
Record SpdyRoundTripper : Type := { configOf : RoundTripperConfig }.
Definition NewRoundTripperWithConfig (cfg : RoundTripperConfig)
  : SpdyRoundTripper := {| configOf := cfg |}.
End spdy.

Module remotecommand.
Record StreamOptions : Type := {
  Stdin : option io.Reader;
  Stdout : option io.Writer;
  Stderr : option io.Writer;
  Tty : bool
}.
(** A [remotecommand.Executor] built by the library. *)
Inductive Executor : Type := executor (id : N).
End remotecommand.

(** A structured log field, [zap.String(key, val)]. *)
Module zap.
Definition Field := (string * string)%type.
Definition String (key val : string) : Field := (key, val).
End zap.

(** The answers of everything outside the package: client-go, the cluster
    behind it, and [Duration.String].  [TLSConfigFor] may answer with a
    nil configuration and no error. *)
Record Library : Type := {
  TLSConfigFor : rest.Config -> result (option tls.Config);
  HTTPWrappersForConfig :
    rest.Config -> spdy.SpdyRoundTripper -> result http.RoundTripper;
  NewSPDYExecutorForTransports :
    http.RoundTripper -> spdy.SpdyRoundTripper -> string -> rest.URL ->
    result remotecommand.Executor;
  Stream : remotecommand.Executor -> remotecommand.StreamOptions -> option error;
  Create :
    context.Context -> authzv1.SelfSubjectAccessReview -> metav1.CreateOptions ->
    result authzv1.SelfSubjectAccessReview;
  DurationString : time.Duration -> string
}.

(** The calls the package makes that have an effect outside it. *)
Inductive Event : Type :=
| EvLog (msg : string) (fields : list zap.Field)
| EvTLSConfigFor (config : rest.Config)
| EvHTTPWrappersForConfig (config : rest.Config) (rt : spdy.SpdyRoundTripper)
| EvNewSPDYExecutorForTransports
    (wrapper : http.RoundTripper) (upgrader : spdy.SpdyRoundTripper)
    (method : string) (url : rest.URL)
| EvStream (exec : remotecommand.Executor) (options : remotecommand.StreamOptions)
| EvCreate (ctx : context.Context) (review : authzv1.SelfSubjectAccessReview)
    (opts : metav1.CreateOptions)
| EvCancel (ctx : context.Context).

(** ** The package's state *)

(** [ClientOpt] of client.go.  [K8sConfig] is a pointer in Go; the
    configuration it points to is kept in place. *)
Record ClientOpt : Type := {
  K8sConfig : rest.Config;
  PodName : string;
  ContainerName : string;
  Namespace : string;
  CurrentContext : string
}.

(** What a method of [*Client] can read and change: the [ClientOpt] behind
    the receiver's embedded pointer, the next free heap address, and the
    trace of calls made so far (oldest first). *)
Record World : Type := {
  opt : ClientOpt;
  heapNext : ptr;
  calls : list Event
}.

Definition M : Type -> Type := state World.

(** Reads the receiver's [ClientOpt]. *)
Definition deref : M ClientOpt :=
  w <- get ;; ret (opt w).

(** Appends a call to the trace. *)
Definition emit (e : Event) : M unit :=
  w <- get ;;
  put {| opt := opt w; heapNext := heapNext w; calls := calls w ++ [e] |}.

(** Allocates a fresh address. *)
Definition new : M ptr :=
  w <- get ;;
  put {| opt := opt w; heapNext := N.succ (heapNext w); calls := calls w |} ;;
  ret (heapNext w).

(** The calls into the library: each is recorded, then answered. *)
Module call.
Definition TLSConfigFor (lib : Library) (config : rest.Config) :=
  emit (EvTLSConfigFor config) ;; ret (TLSConfigFor lib config).
Definition HTTPWrappersForConfig (lib : Library) (config : rest.Config)
    (rt : spdy.SpdyRoundTripper) :=
  emit (EvHTTPWrappersForConfig config rt) ;;
  ret (HTTPWrappersForConfig lib config rt).
Definition NewSPDYExecutorForTransports (lib : Library)
    (wrapper : http.RoundTripper) (upgrader : spdy.SpdyRoundTripper)
    (method : string) (url : rest.URL) :=
  emit (EvNewSPDYExecutorForTransports wrapper upgrader method url) ;;
  ret (NewSPDYExecutorForTransports lib wrapper upgrader method url).
Definition Stream (lib : Library) (exec : remotecommand.Executor)
    (options : remotecommand.StreamOptions) :=
  emit (EvStream exec options) ;; ret (Stream lib exec options).
Definition Create (lib : Library) (ctx : context.Context)
    (review : authzv1.SelfSubjectAccessReview) (opts : metav1.CreateOptions) :=
  emit (EvCreate ctx review opts) ;; ret (Create lib ctx review opts).
Definition cancel (ctx : context.Context) := emit (EvCancel ctx).
End call.

Module log.
Definition Info (msg : string) (fields : list zap.Field) : M unit :=
  emit (EvLog msg fields).
End log.

(** [fmt.Errorf] for the verbs the package uses, [%w] and [%s], each taking
    the next operand; other text is copied. *)
Module fmt.

Inductive operand : Type :=
| err (e : error)
| str (s : string).

Definition show (a : operand) : string :=
  match a with
  | err e => errors.Error e
  | str s => s
  end.

Definition isVerb (c v : ascii) : bool :=
  Ascii.eqb c "%" && (Ascii.eqb v "w" || Ascii.eqb v "s").

Fixpoint Sprintf (format : string) (args : list operand) : string :=
  match format with
  | EmptyString => ""
  | String c tail =>
      match tail with
      | EmptyString => String c ""
      | String v rest =>
          if isVerb c v then
            match args with
            | a :: args' => show a ++ Sprintf rest args'
            | [] => "%!" ++ String v ("(MISSING)" ++ Sprintf rest [])
            end
          else String c (Sprintf tail args)
      end
  end.

(** The operand of the first [%w], when it is an error. *)
Fixpoint wrapped (format : string) (args : list operand) : option error :=
  match format with
  | EmptyString => None
  | String c tail =>
      match tail with
      | EmptyString => None
      | String v rest =>
          if isVerb c v then
            match args with
            | err e :: args' =>
                if Ascii.eqb v "w" then Some e else wrapped rest args'
            | str _ :: args' => wrapped rest args'
            | [] => None
            end
          else wrapped tail args
      end
  end.

Definition Errorf (format : string) (args : list operand) : M error :=
  p <- new ;;
  ret match wrapped format args with
      | Some e => wrapError p (Sprintf format args) e
      | None => errorString p (Sprintf format args)
      end.

End fmt.

(** ** exec.go *)

(** The address [fmt.Errorf] gave the sentinel when the package was
    initialised. *)
Definition sentinelAddr : ptr := 0%N.

(** [var deniedCreateExecErr = fmt.Errorf("no permissions to create exec subresource")] *)
Definition deniedCreateExecErr : error :=
  errorString sentinelAddr "no permissions to create exec subresource".

(** [RoundTripperFor]: the wrapper and the upgrader, or the error. *)
Definition RoundTripperFor (lib : Library) (config : rest.Config)
  : M (result (http.RoundTripper * spdy.SpdyRoundTripper)) :=
  r <- call.TLSConfigFor lib config ;;
  match r with
  | Err e => ret (Err e)
  | Ok tlsConfig =>
      let proxy := http.ProxyFromEnvironment in
      let proxy :=
        match rest.Proxy config with
        | Some configProxy => configProxy
        | None => proxy
        end in
      let upgradeRoundTripper :=
        spdy.NewRoundTripperWithConfig
          {| spdy.TLS := tlsConfig;
             spdy.FollowRedirects := true;
             spdy.RequireSameHostRedirects := false;
             spdy.Proxier := proxy;
             spdy.PingPeriod := 0%Z |} in
      r <- call.HTTPWrappersForConfig lib config upgradeRoundTripper ;;
      match r with
      | Err e => ret (Err e)
      | Ok wrapper => ret (Ok (wrapper, upgradeRoundTripper))
      end
  end.

Definition NewSPDYExecutor (lib : Library) (config : rest.Config)
    (method : string) (url : rest.URL) : M (result remotecommand.Executor) :=
  r <- RoundTripperFor lib config ;;
  match r with
  | Err e => ret (Err e)
  | Ok (wrapper, upgradeRoundTripper) =>
      call.NewSPDYExecutorForTransports lib wrapper upgradeRoundTripper method url
  end.

(** [var newExecutor]: the package assigns it once, to a function that
    calls [NewSPDYExecutor]. *)
Definition newExecutor (lib : Library) (config : rest.Config)
    (method : string) (url : rest.URL) : M (result remotecommand.Executor) :=
  NewSPDYExecutor lib config method url.

(** The [execRequest] that [ExecPod] builds (exec.go, lines 32-46). *)
Definition execRequest (c : ClientOpt) (command : list string)
    (stdin : option io.Reader) (stdout stderr : option io.Writer)
    (tty : bool) (timeout : time.Duration) : rest.Request :=
  let execRequest :=
    rest.Timeout timeout
      (rest.SubResource ["exec"]
        (rest.Name (PodName c)
          (rest.Namespace (Namespace c)
            (rest.Resource "pods" rest.Post)))) in
  rest.VersionedParams
    {| corev1.Container := ContainerName c;
       corev1.Command := command;
       corev1.Stdin := notNil stdin;
       corev1.Stdout := notNil stdout;
       corev1.Stderr := notNil stderr;
       corev1.TTY := tty |}
    scheme.ParameterCodec execRequest.

(** The options [ExecPod] streams with (exec.go, lines 53-58). *)
Definition streamOptions (stdin : option io.Reader)
    (stdout stderr : option io.Writer) (tty : bool)
  : remotecommand.StreamOptions :=
  {| remotecommand.Stdin := stdin;
     remotecommand.Stdout := stdout;
     remotecommand.Stderr := stderr;
     remotecommand.Tty := tty |}.

Definition ExecPod (lib : Library) (command : list string)
    (stdin : option io.Reader) (stdout stderr : option io.Writer)
    (tty : bool) (timeout : time.Duration) : M (option error) :=
  c <- deref ;;
  log.Info "sending exec request, command=%s, namespace=%S, pod=%s, container=%s"
    [zap.String "command" (strings.Join command " ");
     zap.String "namespace" (Namespace c);
     zap.String "pod" (PodName c);
     zap.String "container" (ContainerName c);
     zap.String "timeout" (DurationString lib timeout)] ;;
  let execRequest := execRequest c command stdin stdout stderr tty timeout in
  r <- newExecutor lib (K8sConfig c) "POST" (rest.URLOf execRequest) ;;
  match r with
  | Err e =>
      e' <- fmt.Errorf "failed to set up executor: %w" [fmt.err e] ;;
      ret (Some e')
  | Ok exec =>
      r <- call.Stream lib exec (streamOptions stdin stdout stderr tty) ;;
      match r with
      | Some e =>
          e' <- fmt.Errorf "failed to exec command: %w" [fmt.err e] ;;
          ret (Some e')
      | None => ret None
      end
  end.

(** The review [CanExec] submits (exec.go, lines 68-79). *)
Definition selfAccessReview (c : ClientOpt) : authzv1.SelfSubjectAccessReview :=
  {| authzv1.Spec :=
       {| authzv1.ResourceAttributes_ :=
            Some {| authzv1.Namespace := Namespace c;
                    authzv1.Verb := "create";
                    authzv1.Group := "";
                    authzv1.Resource := "pods";
                    authzv1.Subresource := "exec";
                    authzv1.Name := "" |} |};
     authzv1.Status := authzv1.zeroStatus |}.

(** The context [CanExec] queries under (exec.go, line 83). *)
Definition canExecContext : context.Context :=
  context.WithTimeout context.Background (10 * time.Second)%Z.

(** [CanExec]; the deferred [cancel()] runs once the body has its result. *)
Definition CanExec (lib : Library) : M (option error) :=
  c <- deref ;;
  let selfAccessReview := selfAccessReview c in
  log.Info "checking for exec permissions."
    [zap.String "namespace" (Namespace c)] ;;
  let ctx := canExecContext in
  returned <-
    (r <- call.Create lib ctx selfAccessReview metav1.CreateOptions0 ;;
     match r with
     | Err e => ret (Some e)
     | Ok response =>
         if negb (authzv1.Allowed (authzv1.Status response)) then
           if negb (String.eqb (authzv1.Reason (authzv1.Status response)) "") then
             e <- fmt.Errorf "%w. reason: %s"
                    [fmt.err deniedCreateExecErr;
                     fmt.str (authzv1.Reason (authzv1.Status response))] ;;
             ret (Some e)
           else ret (Some deniedCreateExecErr)
         else
           log.Info "confirmed exec permissions."
             [zap.String "namespace" (Namespace c)] ;;
           ret None
     end) ;;
  call.cancel ctx ;;
  ret returned.

(** ** Running an operation *)

(** The value an operation returns from a world, the world it leaves, and
    the calls it made. *)
Definition returns {A : Type} (m : M A) (w : World) : A := fst (runState m w).
Definition after {A : Type} (m : M A) (w : World) : World := snd (runState m w).
Definition made {A : Type} (m : M A) (w : World) : list Event :=
  skipn (length (calls w)) (calls (after m w)).

(** The calls of one kind in a trace. *)
Definition tlsCalls (tr : list Event) : list rest.Config :=
  flat_map (fun ev => match ev with EvTLSConfigFor c => [c] | _ => [] end) tr.
Definition wrapperCalls (tr : list Event)
  : list (rest.Config * spdy.SpdyRoundTripper) :=
  flat_map (fun ev => match ev with
                      | EvHTTPWrappersForConfig c rt => [(c, rt)]
                      | _ => []
                      end) tr.
Definition executorCalls (tr : list Event)
  : list (http.RoundTripper * spdy.SpdyRoundTripper * string * rest.URL) :=
  flat_map (fun ev => match ev with
                      | EvNewSPDYExecutorForTransports wr up m u => [(wr, up, m, u)]
                      | _ => []
                      end) tr.
Definition streamCalls (tr : list Event)
  : list (remotecommand.Executor * remotecommand.StreamOptions) :=
  flat_map (fun ev => match ev with EvStream x o => [(x, o)] | _ => [] end) tr.
Definition createCalls (tr : list Event)
  : list (context.Context * authzv1.SelfSubjectAccessReview * metav1.CreateOptions) :=
  flat_map (fun ev => match ev with EvCreate c r o => [(c, r, o)] | _ => [] end) tr.
Definition cancelCalls (tr : list Event) : list context.Context :=
  flat_map (fun ev => match ev with EvCancel c => [c] | _ => [] end) tr.

(** The error the library answered a call with, if it did. *)
Definition answeredError (lib : Library) (ev : Event) : option error :=
  match ev with
  | EvTLSConfigFor c =>
      match TLSConfigFor lib c with Err e => Some e | Ok _ => None end
  | EvHTTPWrappersForConfig c rt =>
      match HTTPWrappersForConfig lib c rt with Err e => Some e | Ok _ => None end
  | EvNewSPDYExecutorForTransports wr up m u =>
      match NewSPDYExecutorForTransports lib wr up m u with
      | Err e => Some e
      | Ok _ => None
      end
  | EvStream x o => Stream lib x o
  | EvCreate c r o =>
      match Create lib c r o with Err e => Some e | Ok _ => None end
  | EvLog _ _ | EvCancel _ => None
  end.

(** The errors the library answered with over a trace. *)
Definition libraryErrors (lib : Library) (tr : list Event) : list error :=
  flat_map (fun ev => match answeredError lib ev with
                      | Some e => [e]
                      | None => []
                      end) tr.

(** [e] is a library error of the trace as it is, or wraps one directly. *)
Definition surfaces (lib : Library) (tr : list Event) (e : error) : Prop :=
  exists le, In le (libraryErrors lib tr) /\ (e = le \/ errors.Unwrap e = Some le).

(** ** A scripted library and cluster, for concrete runs *)

Module fake.

Definition config : rest.Config :=
  {| rest.Host := "https://10.0.0.1:6443"; rest.Proxy := None |}.

Definition proxiedConfig : rest.Config :=
  {| rest.Host := "https://10.0.0.1:6443";
     rest.Proxy := Some (http.proxyFunc 7%N) |}.

Definition clientOpt : ClientOpt :=
  {| K8sConfig := config;
     PodName := "tidb-0";
     ContainerName := "tidb";
     Namespace := "tidb-cluster";
     CurrentContext := "dev" |}.

(** A world just after package initialisation. *)
Definition world : World :=
  {| opt := clientOpt; heapNext := 1%N; calls := [] |}.

Definition review (allowed : bool) (reason : string)
  : authzv1.SelfSubjectAccessReview :=
  {| authzv1.Spec := {| authzv1.ResourceAttributes_ := None |};
     authzv1.Status := {| authzv1.Allowed := allowed; authzv1.Reason := reason |} |}.

(** A library that gives the same scripted answer to every call of a kind. *)
Definition library
    (tlsAnswer : result (option tls.Config))
    (wrapAnswer : result http.RoundTripper)
    (executorAnswer : result remotecommand.Executor)
    (streamAnswer : option error)
    (createAnswer : result authzv1.SelfSubjectAccessReview) : Library :=
  {| TLSConfigFor := fun _ => tlsAnswer;
     HTTPWrappersForConfig := fun _ _ => wrapAnswer;
     NewSPDYExecutorForTransports := fun _ _ _ _ => executorAnswer;
     Stream := fun _ _ => streamAnswer;
     Create := fun _ _ _ => createAnswer;
     DurationString := fun d => "10s" |}.

Definition unauthorized : error := errorString 100%N "Unauthorized".
Definition badCert : error := errorString 101%N "unable to load root certificates".
Definition brokenPipe : error := errorString 102%N "write: broken pipe".

(** Everything succeeds; the access review answers as given. *)
Definition healthy (createAnswer : result authzv1.SelfSubjectAccessReview)
  : Library :=
  library (Ok (Some (tls.config 1%N))) (Ok (http.roundTripper 2%N))
          (Ok (remotecommand.executor 3%N)) None createAnswer.

Definition allowing : Library := healthy (Ok (review true "")).
Definition denying (reason : string) : Library := healthy (Ok (review false reason)).
Definition unreachable : Library := healthy (Err unauthorized).

(** TLS set-up fails. *)
Definition noTLS : Library :=
  library (Err badCert) (Ok (http.roundTripper 2%N))
          (Ok (remotecommand.executor 3%N)) None (Ok (review true "")).

(** The stream breaks. *)
Definition breaking : Library :=
  library (Ok None) (Ok (http.roundTripper 2%N))
          (Ok (remotecommand.executor 3%N)) (Some brokenPipe) (Ok (review true "")).

End fake.

(** ** What the claims speak of *)

(** The round tripper [rt] is configured as [RoundTripperFor] promises for
    [config]: the configured proxy when there is one, else the
    environment's; redirects followed, across hosts too; no pings. *)
Definition configuredFor (config : rest.Config) (rt : spdy.SpdyRoundTripper)
  : Prop :=
  (forall proxy, rest.Proxy config = Some proxy ->
                 spdy.Proxier (spdy.configOf rt) = proxy) /\
  (rest.Proxy config = None ->
   spdy.Proxier (spdy.configOf rt) = http.ProxyFromEnvironment) /\
  spdy.FollowRedirects (spdy.configOf rt) = true /\
  spdy.RequireSameHostRedirects (spdy.configOf rt) = false /\
  spdy.PingPeriod (spdy.configOf rt) = 0%Z.


(** What the cluster answers the review [CanExec] submits from [w]. *)
Definition reviewAnswer (lib : Library) (w : World)
  : result authzv1.SelfSubjectAccessReview :=
  Create lib canExecContext (selfAccessReview (opt w)) metav1.CreateOptions0.

(** What setting up the executor for [ExecPod]'s request answers from [w]. *)
Definition setupAnswer (lib : Library) (w : World) (request : rest.Request)
  : result remotecommand.Executor :=
  returns (newExecutor lib (K8sConfig (opt w)) "POST" (rest.URLOf request)) w.

(** ** Further notions *)

(** The address an error value lives at. *)
Definition addrOf (e : error) : ptr :=
  match e with
  | errorString p _ => p
  | wrapError p _ _ => p
  end.

(** The log entries in a trace. *)
Definition logCalls (tr : list Event) : list (string * list zap.Field) :=
  flat_map (fun ev => match ev with EvLog msg fields => [(msg, fields)] | _ => [] end) tr.

(** Further scripted worlds and libraries. *)
Module scenario.

(** Another client in the same namespace as [fake.clientOpt]: another pod
    and container, reached through a proxy, under another context. *)
Definition neighbourOpt : ClientOpt :=
  {| K8sConfig := fake.proxiedConfig;
     PodName := "pd-1";
     ContainerName := "pd";
     Namespace := "tidb-cluster";
     CurrentContext := "staging" |}.

Definition neighbourWorld : World :=
  {| opt := neighbourOpt; heapNext := 1%N; calls := [] |}.

(** The client of [fake.clientOpt] under another context. *)
Definition prodOpt : ClientOpt :=
  {| K8sConfig := fake.config;
     PodName := "tidb-0";
     ContainerName := "tidb";
     Namespace := "tidb-cluster";
     CurrentContext := "prod" |}.

Definition prodWorld : World :=
  {| opt := prodOpt; heapNext := 1%N; calls := [] |}.

(** The wrappers cannot be built. *)
Definition noWrappers : Library :=
  fake.library (Ok None) (Err fake.unauthorized)
               (Ok (remotecommand.executor 3%N)) None (Ok (fake.review true "")).

End scenario.

(** ** Traces *)

Lemma skipn_length_app {A : Type} (l l' : list A) :
  skipn (length l) (l ++ l') = l'.
Proof.
  induction l as [|a l IH]; [reflexivity | exact IH].
Qed.

(** Unfolds an operation down to the library's answers. *)
Ltac unfold_run :=
  unfold made, returns, after, ExecPod, CanExec, newExecutor, NewSPDYExecutor,
    RoundTripperFor, call.TLSConfigFor, call.HTTPWrappersForConfig,
    call.NewSPDYExecutorForTransports, call.Stream, call.Create, call.cancel,
    log.Info, fmt.Errorf, new, emit, deref;
  cbn [runState bind ret get put Monad_state MonadState_state fst snd
       opt heapNext calls].

(** Splits on the answer of the next library call in the goal. *)
Ltac answer :=
  match goal with
  | |- context [TLSConfigFor ?lib ?c] =>
      destruct (TLSConfigFor lib c) eqn:?
  | |- context [HTTPWrappersForConfig ?lib ?c ?rt] =>
      destruct (HTTPWrappersForConfig lib c rt) eqn:?
  | |- context [NewSPDYExecutorForTransports ?lib ?wr ?up ?m ?u] =>
      destruct (NewSPDYExecutorForTransports lib wr up m u) eqn:?
  | |- context [Stream ?lib ?x ?o] =>
      destruct (Stream lib x o) eqn:?
  | |- context [Create ?lib ?c ?r ?o] =>
      destruct (Create lib c r o) eqn:?
  end;
  cbn [runState bind ret get put Monad_state MonadState_state fst snd
       opt heapNext calls].

(** Runs the monad's plumbing. *)
Ltac simp_run :=
  cbn [runState bind ret get put Monad_state MonadState_state fst snd
       opt heapNext calls negb].

(** Reads the calls made off a trace that extends the initial one. *)
Ltac read_made :=
  repeat rewrite <- app_assoc; rewrite ?skipn_length_app; cbn [app].

(** ** [RoundTripperFor] *)

Section RoundTripperFor_facts.

Variable lib : Library.
Variable config : rest.Config.

(** The answer does not depend on the world it is asked in. *)
Lemma RoundTripperFor_returns_anywhere (w w' : World) :
  returns (RoundTripperFor lib config) w = returns (RoundTripperFor lib config) w'.
Proof.
  unfold_run. answer; [answer |]; reflexivity.
Qed.

(** The world is extended by the calls made, and by nothing else. *)
Lemma RoundTripperFor_after (w : World) :
  after (RoundTripperFor lib config) w =
  {| opt := opt w; heapNext := heapNext w;
     calls := calls w ++ made (RoundTripperFor lib config) w |}.
Proof.
  unfold_run. answer; [answer |]; read_made; cbn;
    rewrite <- ?app_assoc; reflexivity.
Qed.

Lemma RoundTripperFor_made_tls (w : World) :
  tlsCalls (made (RoundTripperFor lib config) w) = [config].
Proof.
  unfold_run. answer; [answer |]; read_made; reflexivity.
Qed.

Lemma RoundTripperFor_made_no_stream (w : World) :
  streamCalls (made (RoundTripperFor lib config) w) = [] /\
  executorCalls (made (RoundTripperFor lib config) w) = [] /\
  createCalls (made (RoundTripperFor lib config) w) = [].
Proof.
  unfold_run. answer; [answer |]; read_made; repeat split.
Qed.

(** C10. For every configuration, the transport [RoundTripperFor] builds
    uses [config.Proxy] as its proxier when that is set and the proxy from
    the environment otherwise, follows redirects without requiring the same
    host, and has a zero ping period: this holds of the upgrader returned,
    and of the round tripper handed to [HTTPWrappersForConfig], which is
    built whenever the TLS configuration is obtained. *)
Theorem RoundTripperFor_transport (w : World) :
  (forall wrapper upgrader,
      returns (RoundTripperFor lib config) w = Ok (wrapper, upgrader) ->
      configuredFor config upgrader) /\
  (forall c rt,
      In (c, rt) (wrapperCalls (made (RoundTripperFor lib config) w)) ->
      c = config /\ configuredFor config rt) /\
  (forall tlsConfig,
      TLSConfigFor lib config = Ok tlsConfig ->
      exists rt,
        wrapperCalls (made (RoundTripperFor lib config) w) = [(config, rt)] /\
        spdy.TLS (spdy.configOf rt) = tlsConfig).
Proof.
  assert (Hcfg : forall tlsConfig,
    configuredFor config
      (spdy.NewRoundTripperWithConfig
         {| spdy.TLS := tlsConfig;
            spdy.FollowRedirects := true;
            spdy.RequireSameHostRedirects := false;
            spdy.Proxier :=
              match rest.Proxy config with
              | Some configProxy => configProxy
              | None => http.ProxyFromEnvironment
              end;
            spdy.PingPeriod := 0%Z |})).
  { intros tlsConfig. unfold configuredFor. cbn.
    repeat split.
    - intros proxy Hp. rewrite Hp. reflexivity.
    - intros Hp. rewrite Hp. reflexivity. }
  unfold_run. answer; [answer |]; read_made; cbn; (split; [| split]).
  - intros wrapper upgrader [= _ <-]. apply Hcfg.
  - intros c rt [[= <- <-] | []]. split; [reflexivity | apply Hcfg].
  - intros tlsConfig [= <-]. eexists. split; reflexivity.
  - intros wrapper upgrader [=].
  - intros c rt [[= <- <-] | []]. split; [reflexivity | apply Hcfg].
  - intros tlsConfig [= <-]. eexists. split; reflexivity.
  - intros wrapper upgrader [=].
  - intros c rt [].
  - intros tlsConfig [=].
Qed.

End RoundTripperFor_facts.

(** ** [ExecPod] *)

Section ExecPod_facts.

Variable lib : Library.
Variable command : list string.
Variable stdin : option io.Reader.
Variables stdout stderr : option io.Writer.
Variable tty : bool.
Variable timeout : time.Duration.


Lemma newExecutor_returns_anywhere config method url (w w' : World) :
  returns (newExecutor lib config method url) w =
  returns (newExecutor lib config method url) w'.
Proof.
  unfold_run. repeat answer; reflexivity.
Qed.






End ExecPod_facts.

(** ** [CanExec] *)

Lemma append_empty (s : string) : s ++ "" = s.
Proof.
  induction s as [|c s IH]; cbn; [reflexivity | now rewrite IH].
Qed.

(** The message of the denial that carries a reason. *)
Lemma Sprintf_reason (e : error) (reason : string) :
  fmt.Sprintf "%w. reason: %s" [fmt.err e; fmt.str reason] =
  errors.Error e ++ ". reason: " ++ reason.
Proof.
  cbn. rewrite append_empty. reflexivity.
Qed.

Section CanExec_facts.

Variable lib : Library.
Variable w : World.

(** The error [CanExec] returns for a denial. *)
Lemma CanExec_denied_returns response :
  reviewAnswer lib w = Ok response ->
  authzv1.Allowed (authzv1.Status response) = false ->
  returns (CanExec lib) w =
  Some (if String.eqb (authzv1.Reason (authzv1.Status response)) ""
        then deniedCreateExecErr
        else wrapError (heapNext w)
               (errors.Error deniedCreateExecErr ++ ". reason: " ++
                authzv1.Reason (authzv1.Status response))
               deniedCreateExecErr).
Proof.
  unfold reviewAnswer. intros Hanswer Hdenied.
  unfold_run. rewrite Hanswer. simp_run. rewrite Hdenied. simp_run.
  destruct (String.eqb_spec (authzv1.Reason (authzv1.Status response)) "");
    simp_run; [reflexivity |].
  rewrite Sprintf_reason. reflexivity.
Qed.

(** C1. For every authorization response that is not allowed, [CanExec]
    returns a non-nil error whose message says that permission is missing;
    when the response carries a non-empty reason, the message contains that
    reason. *)
Theorem CanExec_denied response :
  reviewAnswer lib w = Ok response ->
  authzv1.Allowed (authzv1.Status response) = false ->
  exists e,
    returns (CanExec lib) w = Some e /\
    strings.Contains (errors.Error e) "no permissions to create exec subresource" /\
    (authzv1.Reason (authzv1.Status response) <> "" ->
     strings.Contains (errors.Error e) (authzv1.Reason (authzv1.Status response))).
Proof.
  intros Hanswer Hdenied.
  rewrite (CanExec_denied_returns response Hanswer Hdenied).
  eexists. split; [reflexivity |].
  destruct (String.eqb_spec (authzv1.Reason (authzv1.Status response)) "")
    as [Hempty | Hreason]; cbn [errors.Error deniedCreateExecErr]; split.
  - exists "", "". reflexivity.
  - intros Hne. contradiction.
  - exists "", (". reason: " ++ authzv1.Reason (authzv1.Status response)).
    reflexivity.
  - intros _.
    exists "no permissions to create exec subresource. reason: ", "".
    rewrite append_empty. reflexivity.
Qed.

(** C3. For every authorization response with [Allowed] true that arrives
    without a transport error, [CanExec] returns nil. *)
Theorem CanExec_allowed response :
  reviewAnswer lib w = Ok response ->
  authzv1.Allowed (authzv1.Status response) = true ->
  returns (CanExec lib) w = None.
Proof.
  unfold reviewAnswer. intros Hanswer Hallowed.
  unfold_run. rewrite Hanswer. simp_run. rewrite Hallowed. reflexivity.
Qed.

(** C9. The sentinel's message is "no permissions to create exec
    subresource".  When the response is denied with an empty reason,
    [CanExec] returns exactly the sentinel; in both denied branches
    [errors.Is] finds the sentinel in the returned error, which with a
    reason wraps it directly. *)
Theorem CanExec_denied_sentinel response :
  reviewAnswer lib w = Ok response ->
  authzv1.Allowed (authzv1.Status response) = false ->
  errors.Error deniedCreateExecErr = "no permissions to create exec subresource" /\
  (authzv1.Reason (authzv1.Status response) = "" ->
   returns (CanExec lib) w = Some deniedCreateExecErr) /\
  exists e,
    returns (CanExec lib) w = Some e /\
    errors.Is e deniedCreateExecErr = true /\
    (authzv1.Reason (authzv1.Status response) <> "" ->
     e <> deniedCreateExecErr /\ errors.Unwrap e = Some deniedCreateExecErr).
Proof.
  intros Hanswer Hdenied.
  rewrite (CanExec_denied_returns response Hanswer Hdenied).
  split; [reflexivity |].
  destruct (String.eqb_spec (authzv1.Reason (authzv1.Status response)) "")
    as [Hempty | Hreason]; split.
  - reflexivity.
  - eexists. split; [reflexivity |]. split; [reflexivity |].
    intros Hne. contradiction.
  - intros He. contradiction.
  - eexists. split; [reflexivity |]. split; [reflexivity |].
    intros _. split; [discriminate | reflexivity].
Qed.

(** The calls [CanExec] makes to the cluster: one review, then the
    deferred cancel. *)
Lemma CanExec_calls :
  createCalls (made (CanExec lib) w) =
    [(canExecContext, selfAccessReview (opt w), metav1.CreateOptions0)] /\
  cancelCalls (made (CanExec lib) w) = [canExecContext].
Proof.
  unfold_run. answer.
  - destruct (authzv1.Allowed (authzv1.Status a)); simp_run.
    + read_made. split; reflexivity.
    + destruct (String.eqb (authzv1.Reason (authzv1.Status a)) ""); simp_run;
        read_made; split; reflexivity.
  - read_made. split; reflexivity.
Qed.

(** C6. Every call of [CanExec] issues its authorization query, once,
    under a context with a ten-second timeout, whatever the client's
    configuration and whatever the library answers; the same context is
    cancelled when [CanExec] returns. *)
Theorem CanExec_fixed_timeout :
  exists review opts,
    createCalls (made (CanExec lib) w) =
      [(context.WithTimeout context.Background (10 * time.Second)%Z,
        review, opts)] /\
    cancelCalls (made (CanExec lib) w) =
      [context.WithTimeout context.Background (10 * time.Second)%Z] /\
    (10 * time.Second = 10000000000 * time.Nanosecond)%Z.
Proof.
  destruct CanExec_calls as [Hcreate Hcancel].
  do 2 eexists. rewrite Hcreate, Hcancel. repeat split.
Qed.

(** C8. The authorization query [CanExec] builds always has verb "create",
    resource "pods", subresource "exec", an empty group, the client's
    configured namespace and an empty resource name: it is scoped to the
    namespace and never names the pod. *)
Theorem CanExec_query_attributes :
  exists ctx review opts,
    createCalls (made (CanExec lib) w) = [(ctx, review, opts)] /\
    authzv1.ResourceAttributes_ (authzv1.Spec review) =
      Some {| authzv1.Namespace := Namespace (opt w);
              authzv1.Verb := "create";
              authzv1.Group := "";
              authzv1.Resource := "pods";
              authzv1.Subresource := "exec";
              authzv1.Name := "" |}.
Proof.
  destruct CanExec_calls as [Hcreate _].
  do 3 eexists. rewrite Hcreate. split; reflexivity.
Qed.

End CanExec_facts.

(** ** Errors and the configuration, over both operations *)

Lemma Is_refl (e : error) : errors.Is e e = true.
Proof.
  destruct e; cbn; rewrite N.eqb_refl; reflexivity.
Qed.

Lemma Is_wrapError (p : ptr) (msg : string) (e : error) :
  errors.Is (wrapError p msg e) e = true.
Proof.
  cbn [errors.Is]. rewrite Is_refl. apply orb_true_r.
Qed.

Lemma Sprintf_setup (e : error) :
  fmt.Sprintf "failed to set up executor: %w" [fmt.err e] =
  "failed to set up executor: " ++ errors.Error e.
Proof.
  cbn. rewrite append_empty. reflexivity.
Qed.

Lemma Sprintf_exec (e : error) :
  fmt.Sprintf "failed to exec command: %w" [fmt.err e] =
  "failed to exec command: " ++ errors.Error e.
Proof.
  cbn. rewrite append_empty. reflexivity.
Qed.

(** Reads the library's errors off an explicit trace, given its answers. *)
Ltac read_errors :=
  unfold libraryErrors; cbn [flat_map answeredError app];
  repeat match goal with
         | H : ?call = _ |- context [?call] => rewrite H
         end;
  cbn [app].

Section Error_facts.

Variable lib : Library.
Variable w : World.
Variable command : list string.
Variable stdin : option io.Reader.
Variables stdout stderr : option io.Writer.
Variable tty : bool.
Variable timeout : time.Duration.

(** An error of [ExecPod] wraps the library's: the set-up error, with no
    stream attempted, or the stream's error. *)
Lemma ExecPod_errors (e : error) :
  returns (ExecPod lib command stdin stdout stderr tty timeout) w = Some e ->
  exists le,
    In le (libraryErrors lib
             (made (ExecPod lib command stdin stdout stderr tty timeout) w)) /\
    errors.Unwrap e = Some le /\
    errors.Is e le = true /\
    ((setupAnswer lib w
        (execRequest (opt w) command stdin stdout stderr tty timeout) = Err le /\
      errors.Error e = "failed to set up executor: " ++ errors.Error le /\
      streamCalls
        (made (ExecPod lib command stdin stdout stderr tty timeout) w) = [])
     \/
     (exists exec,
        setupAnswer lib w
          (execRequest (opt w) command stdin stdout stderr tty timeout) = Ok exec /\
        Stream lib exec (streamOptions stdin stdout stderr tty) = Some le /\
        errors.Error e = "failed to exec command: " ++ errors.Error le)).
Proof.
  unfold setupAnswer. unfold_run. repeat answer; read_made;
    intros [= <-]; eexists;
    (split; [read_errors; left; reflexivity |]);
    (split; [reflexivity |]);
    (split; [apply Is_wrapError |]).
  - right. eexists. split; [reflexivity |]. split; [assumption |].
    cbn [errors.Error]. apply Sprintf_exec.
  - left. split; [reflexivity |]. split; [| reflexivity].
    cbn [errors.Error]. apply Sprintf_setup.
  - left. split; [reflexivity |]. split; [| reflexivity].
    cbn [errors.Error]. apply Sprintf_setup.
  - left. split; [reflexivity |]. split; [| reflexivity].
    cbn [errors.Error]. apply Sprintf_setup.
Qed.

(** An error of [CanExec] is the library's own when the request fails, and
    otherwise reports a denial through the sentinel. *)
Lemma CanExec_errors (e : error) :
  returns (CanExec lib) w = Some e ->
  (reviewAnswer lib w = Err e /\
   In e (libraryErrors lib (made (CanExec lib) w)))
  \/
  (exists response,
     reviewAnswer lib w = Ok response /\
     authzv1.Allowed (authzv1.Status response) = false /\
     errors.Is e deniedCreateExecErr = true /\
     libraryErrors lib (made (CanExec lib) w) = []).
Proof.
  unfold reviewAnswer. unfold_run. answer.
  - destruct (authzv1.Allowed (authzv1.Status a)) eqn:Hallowed; simp_run;
      [discriminate |].
    destruct (String.eqb (authzv1.Reason (authzv1.Status a)) ""); simp_run;
      read_made; intros [= <-]; right; exists a;
      (split; [reflexivity |]); (split; [exact Hallowed |]);
      (split; [| read_errors; reflexivity]).
    + reflexivity.
    + apply Is_wrapError.
  - read_made. intros [= <-]. left. split; [reflexivity |].
    read_errors. left. reflexivity.
Qed.

(** Each library call is made at most once, and an operation that returns
    nil met no library error. *)
Lemma calls_once :
  length (tlsCalls
            (made (ExecPod lib command stdin stdout stderr tty timeout) w)) = 1 /\
  length (wrapperCalls
            (made (ExecPod lib command stdin stdout stderr tty timeout) w)) <= 1 /\
  length (executorCalls
            (made (ExecPod lib command stdin stdout stderr tty timeout) w)) <= 1 /\
  length (streamCalls
            (made (ExecPod lib command stdin stdout stderr tty timeout) w)) <= 1 /\
  length (createCalls (made (CanExec lib) w)) = 1.
Proof.
  split; [| split; [| split; [| split]]].
  1-4: unfold_run; repeat answer; read_made; cbn; lia.
  destruct (CanExec_calls lib w) as [-> _]. reflexivity.
Qed.

Lemma nil_means_no_library_error :
  (returns (ExecPod lib command stdin stdout stderr tty timeout) w = None ->
   libraryErrors lib
     (made (ExecPod lib command stdin stdout stderr tty timeout) w) = []) /\
  (returns (CanExec lib) w = None ->
   libraryErrors lib (made (CanExec lib) w) = []).
Proof.
  split.
  - unfold_run. repeat answer; read_made; try discriminate.
    intros _. read_errors. reflexivity.
  - unfold_run. answer; [| discriminate].
    destruct (authzv1.Allowed (authzv1.Status a)); simp_run.
    + read_made. intros _. read_errors. reflexivity.
    + destruct (String.eqb (authzv1.Reason (authzv1.Status a)) ""); simp_run;
        discriminate.
Qed.

(** C4, as the code has it.  Every error [ExecPod] returns wraps the
    library's error, so that it can be recovered: the executor set-up
    error under "failed to set up executor: ", in which case no stream was
    attempted, or the stream's error under "failed to exec command: ".  An
    error of [CanExec] is the authorization request's error as the library
    gave it when the request fails; when the request is answered and
    permission is denied, it is the package's own sentinel or wraps it,
    and no library error is involved.  Neither operation retries or
    recovers: each library call is made at most once, and a nil result
    means no library call failed. *)
Theorem errors_surface_or_denial :
  (forall e,
      returns (ExecPod lib command stdin stdout stderr tty timeout) w = Some e ->
      exists le,
        In le (libraryErrors lib
                 (made (ExecPod lib command stdin stdout stderr tty timeout) w)) /\
        errors.Unwrap e = Some le /\
        errors.Is e le = true /\
        ((setupAnswer lib w
            (execRequest (opt w) command stdin stdout stderr tty timeout) = Err le /\
          errors.Error e = "failed to set up executor: " ++ errors.Error le /\
          streamCalls
            (made (ExecPod lib command stdin stdout stderr tty timeout) w) = [])
         \/
         (exists exec,
            setupAnswer lib w
              (execRequest (opt w) command stdin stdout stderr tty timeout) =
              Ok exec /\
            Stream lib exec (streamOptions stdin stdout stderr tty) = Some le /\
            errors.Error e = "failed to exec command: " ++ errors.Error le))) /\
  (forall e,
      returns (CanExec lib) w = Some e ->
      (reviewAnswer lib w = Err e /\
       In e (libraryErrors lib (made (CanExec lib) w)))
      \/
      (exists response,
         reviewAnswer lib w = Ok response /\
         authzv1.Allowed (authzv1.Status response) = false /\
         errors.Is e deniedCreateExecErr = true /\
         libraryErrors lib (made (CanExec lib) w) = [])) /\
  (length (tlsCalls
             (made (ExecPod lib command stdin stdout stderr tty timeout) w)) = 1 /\
   length (wrapperCalls
             (made (ExecPod lib command stdin stdout stderr tty timeout) w)) <= 1 /\
   length (executorCalls
             (made (ExecPod lib command stdin stdout stderr tty timeout) w)) <= 1 /\
   length (streamCalls
             (made (ExecPod lib command stdin stdout stderr tty timeout) w)) <= 1 /\
   length (createCalls (made (CanExec lib) w)) = 1) /\
  (returns (ExecPod lib command stdin stdout stderr tty timeout) w = None ->
   libraryErrors lib
     (made (ExecPod lib command stdin stdout stderr tty timeout) w) = []) /\
  (returns (CanExec lib) w = None ->
   libraryErrors lib (made (CanExec lib) w) = []).
Proof.
  split; [exact ExecPod_errors |].
  split; [exact CanExec_errors |].
  split; [exact calls_once |].
  exact nil_means_no_library_error.
Qed.

End Error_facts.

Section Frame_facts.

Variable lib : Library.
Variable w : World.
Variable command : list string.
Variable stdin : option io.Reader.
Variables stdout stderr : option io.Writer.
Variable tty : bool.
Variable timeout : time.Duration.

(** Neither operation writes to the receiver's [ClientOpt]. *)
Lemma ExecPod_opt :
  opt (after (ExecPod lib command stdin stdout stderr tty timeout) w) = opt w.
Proof.
  unfold_run. repeat answer; reflexivity.
Qed.

Lemma CanExec_opt : opt (after (CanExec lib) w) = opt w.
Proof.
  unfold_run. answer; [| reflexivity].
  destruct (authzv1.Allowed (authzv1.Status a)); simp_run; [reflexivity |].
  destruct (String.eqb (authzv1.Reason (authzv1.Status a)) ""); reflexivity.
Qed.

(** The one TLS set-up [ExecPod] asks for is for the client's [K8sConfig]. *)
Lemma ExecPod_config :
  tlsCalls (made (ExecPod lib command stdin stdout stderr tty timeout) w) =
  [K8sConfig (opt w)].
Proof.
  unfold_run. repeat answer; read_made; reflexivity.
Qed.

(** C7. Neither [ExecPod] nor [CanExec] changes a field of the client's
    configuration: the [ClientOpt] is the same after each operation as
    before it, and its namespace, pod name, container name and cluster
    configuration reach the request builders and the library as they
    are. *)
Theorem operations_keep_config :
  opt (after (ExecPod lib command stdin stdout stderr tty timeout) w) = opt w /\
  opt (after (CanExec lib) w) = opt w /\
  rest.namespaceOf
    (execRequest (opt w) command stdin stdout stderr tty timeout) =
    Some (Namespace (opt w)) /\
  rest.nameOf
    (execRequest (opt w) command stdin stdout stderr tty timeout) =
    Some (PodName (opt w)) /\
  (exists o,
      rest.paramsOf
        (execRequest (opt w) command stdin stdout stderr tty timeout) = Some o /\
      corev1.Container o = ContainerName (opt w)) /\
  tlsCalls (made (ExecPod lib command stdin stdout stderr tty timeout) w) =
    [K8sConfig (opt w)] /\
  (exists ctx review opts attributes,
      createCalls (made (CanExec lib) w) = [(ctx, review, opts)] /\
      authzv1.ResourceAttributes_ (authzv1.Spec review) = Some attributes /\
      authzv1.Namespace attributes = Namespace (opt w)).
Proof.
  split; [exact ExecPod_opt |].
  split; [exact CanExec_opt |].
  split; [reflexivity |].
  split; [reflexivity |].
  split; [eexists; split; reflexivity |].
  split; [exact ExecPod_config |].
  destruct (CanExec_calls lib w) as [Hcreate _].
  do 4 eexists. rewrite Hcreate. repeat split.
Qed.

End Frame_facts.

(** ** Concrete runs *)

(** Package initialisation: [fmt.Errorf] without a [%w] yields the
    sentinel, an [errorString] at the first address. *)
Example sentinel_at_init :
  returns (fmt.Errorf "no permissions to create exec subresource" [])
          {| opt := fake.clientOpt; heapNext := 0%N; calls := [] |} =
  deniedCreateExecErr.
Proof. reflexivity. Qed.

Example CanExec_denied_with_reason_run :
  returns (CanExec (fake.denying "RBAC: access denied")) fake.world =
  Some (wrapError 1%N
          "no permissions to create exec subresource. reason: RBAC: access denied"
          deniedCreateExecErr).
Proof. reflexivity. Qed.

Example CanExec_unreachable_run :
  returns (CanExec fake.unreachable) fake.world = Some fake.unauthorized.
Proof. reflexivity. Qed.

Example ExecPod_healthy_run :
  runState (ExecPod fake.allowing ["ls"; "-l"] None (Some (io.writer 1%N)) None
              true (5 * time.Second)%Z) fake.world =
  (None,
   {| opt := fake.clientOpt;
      heapNext := 1%N;
      calls :=
        [EvLog "sending exec request, command=%s, namespace=%S, pod=%s, container=%s"
           [("command", "ls -l"); ("namespace", "tidb-cluster");
            ("pod", "tidb-0"); ("container", "tidb"); ("timeout", "10s")];
         EvTLSConfigFor fake.config;
         EvHTTPWrappersForConfig fake.config
           (spdy.NewRoundTripperWithConfig
              {| spdy.TLS := Some (tls.config 1%N);
                 spdy.FollowRedirects := true;
                 spdy.RequireSameHostRedirects := false;
                 spdy.Proxier := http.ProxyFromEnvironment;
                 spdy.PingPeriod := 0%Z |});
         EvNewSPDYExecutorForTransports (http.roundTripper 2%N)
           (spdy.NewRoundTripperWithConfig
              {| spdy.TLS := Some (tls.config 1%N);
                 spdy.FollowRedirects := true;
                 spdy.RequireSameHostRedirects := false;
                 spdy.Proxier := http.ProxyFromEnvironment;
                 spdy.PingPeriod := 0%Z |})
           "POST"
           (rest.URLOf
              {| rest.verb := "POST";
                 rest.built :=
                   [rest.CallResource "pods";
                    rest.CallNamespace "tidb-cluster";
                    rest.CallName "tidb-0";
                    rest.CallSubResource ["exec"];
                    rest.CallTimeout 5000000000%Z;
                    rest.CallVersionedParams
                      {| corev1.Stdin := false;
                         corev1.Stdout := true;
                         corev1.Stderr := false;
                         corev1.TTY := true;
                         corev1.Container := "tidb";
                         corev1.Command := ["ls"; "-l"] |}
                      scheme.ParameterCodec] |});
         EvStream (remotecommand.executor 3%N)
           {| remotecommand.Stdin := None;
              remotecommand.Stdout := Some (io.writer 1%N);
              remotecommand.Stderr := None;
              remotecommand.Tty := true |}] |}).
Proof. reflexivity. Qed.

Example ExecPod_no_tls_run :
  runState (ExecPod fake.noTLS ["ls"] None None None false 0%Z) fake.world =
  (Some (wrapError 1%N
           "failed to set up executor: unable to load root certificates"
           fake.badCert),
   {| opt := fake.clientOpt;
      heapNext := 2%N;
      calls :=
        [EvLog "sending exec request, command=%s, namespace=%S, pod=%s, container=%s"
           [("command", "ls"); ("namespace", "tidb-cluster");
            ("pod", "tidb-0"); ("container", "tidb"); ("timeout", "10s")];
         EvTLSConfigFor fake.config] |}).
Proof. reflexivity. Qed.

Example ExecPod_broken_stream_run :
  returns (ExecPod fake.breaking ["ls"] None None None false 0%Z) fake.world =
  Some (wrapError 1%N "failed to exec command: write: broken pipe"
          fake.brokenPipe).
Proof. reflexivity. Qed.

Example RoundTripperFor_proxied_run :
  returns (RoundTripperFor fake.allowing fake.proxiedConfig) fake.world =
  Ok (http.roundTripper 2%N,
      spdy.NewRoundTripperWithConfig
        {| spdy.TLS := Some (tls.config 1%N);
           spdy.FollowRedirects := true;
           spdy.RequireSameHostRedirects := false;
           spdy.Proxier := http.proxyFunc 7%N;
           spdy.PingPeriod := 0%Z |}).
Proof. reflexivity. Qed.

(** ** The claims at concrete inputs *)

Lemma CanExec_denied_witness :
  exists e,
    returns (CanExec (fake.denying "RBAC: access denied")) fake.world = Some e /\
    strings.Contains (errors.Error e) "no permissions to create exec subresource" /\
    ("RBAC: access denied" <> "" ->
     strings.Contains (errors.Error e) "RBAC: access denied").
Proof.
  apply (CanExec_denied (fake.denying "RBAC: access denied") fake.world
           (fake.review false "RBAC: access denied"));
    reflexivity.
Defined.

Lemma CanExec_allowed_witness :
  returns (CanExec fake.allowing) fake.world = None.
Proof.
  apply (CanExec_allowed fake.allowing fake.world (fake.review true ""));
    reflexivity.
Defined.

Lemma CanExec_denied_sentinel_witness :
  errors.Error deniedCreateExecErr = "no permissions to create exec subresource" /\
  ("" = "" -> returns (CanExec (fake.denying "")) fake.world =
              Some deniedCreateExecErr) /\
  exists e,
    returns (CanExec (fake.denying "")) fake.world = Some e /\
    errors.Is e deniedCreateExecErr = true /\
    ("" <> "" ->
     e <> deniedCreateExecErr /\ errors.Unwrap e = Some deniedCreateExecErr).
Proof.
  apply (CanExec_denied_sentinel (fake.denying "") fake.world
           (fake.review false ""));
    reflexivity.
Defined.

(** C4, as stated, fails: it has every error of [CanExec] be the library's
    error or wrap it.  When the cluster answers the review and denies it
    (here without a reason), the library reports no error at all, and
    [CanExec] returns the package's own sentinel, which wraps nothing. *)
Lemma denial_surfaces_no_library_error :
  returns (CanExec (fake.denying "")) fake.world = Some deniedCreateExecErr /\
  libraryErrors (fake.denying "") (made (CanExec (fake.denying "")) fake.world) = [] /\
  errors.Unwrap deniedCreateExecErr = None /\
  ~ surfaces (fake.denying "") (made (CanExec (fake.denying "")) fake.world)
      deniedCreateExecErr.
Proof.
  split; [reflexivity |]. split; [reflexivity |]. split; [reflexivity |].
  intros (le & Hin & _). exact Hin.
Qed.

(** ** Building the transports and the executor *)

Section Transport_facts.

Variable lib : Library.
Variable config : rest.Config.
Variable w : World.


Variable method : string.
Variable url : rest.URL.

(** X2. [NewSPDYExecutor] asks the library for an executor only once the
    transports are built: when [RoundTripperFor] fails it returns the same
    error and makes no executor call; otherwise it makes one executor
    call, with the wrapper and upgrader [RoundTripperFor] returned and the
    caller's method and URL unchanged, and returns the library's answer to
    it as it is. *)
Theorem NewSPDYExecutor_outcome :
  (forall e,
      returns (RoundTripperFor lib config) w = Err e ->
      returns (NewSPDYExecutor lib config method url) w = Err e /\
      executorCalls (made (NewSPDYExecutor lib config method url) w) = [] /\
      made (NewSPDYExecutor lib config method url) w =
        made (RoundTripperFor lib config) w) /\
  (forall wrapper upgrader,
      returns (RoundTripperFor lib config) w = Ok (wrapper, upgrader) ->
      returns (NewSPDYExecutor lib config method url) w =
        NewSPDYExecutorForTransports lib wrapper upgrader method url /\
      made (NewSPDYExecutor lib config method url) w =
        (made (RoundTripperFor lib config) w ++
         [EvNewSPDYExecutorForTransports wrapper upgrader method url])%list).
Proof.
  unfold_run. answer; [answer |]; read_made; split.
  - intros e [=].
  - intros wrapper upgrader [= <- <-]. split; reflexivity.
  - intros e' [= <-]. repeat split.
  - intros wrapper upgrader [=].
  - intros e' [= <-]. repeat split.
  - intros wrapper upgrader [=].
Qed.

End Transport_facts.

(** ** More on [ExecPod] *)

Section ExecPod_more.

Variable lib : Library.
Variable w : World.
Variable command : list string.
Variable stdin : option io.Reader.
Variables stdout stderr : option io.Writer.
Variable tty : bool.
Variable timeout : time.Duration.

(** X3. [ExecPod] streams exactly once when the executor is set up, on the
    executor it was given and with the caller's own stdin, stdout, stderr
    and tty; and the streams it attaches are the ones its request
    announced: each flag of the request's exec options is true exactly
    when the stream of that name is attached. *)
Theorem ExecPod_streams_what_it_announced :
  (forall exec,
      setupAnswer lib w
        (execRequest (opt w) command stdin stdout stderr tty timeout) = Ok exec ->
      streamCalls
        (made (ExecPod lib command stdin stdout stderr tty timeout) w) =
      [(exec, {| remotecommand.Stdin := stdin;
                 remotecommand.Stdout := stdout;
                 remotecommand.Stderr := stderr;
                 remotecommand.Tty := tty |})]) /\
  (forall exec options,
      In (exec, options)
         (streamCalls
            (made (ExecPod lib command stdin stdout stderr tty timeout) w)) ->
      exists o,
        rest.paramsOf
          (execRequest (opt w) command stdin stdout stderr tty timeout) = Some o /\
        corev1.Stdin o = notNil (remotecommand.Stdin options) /\
        corev1.Stdout o = notNil (remotecommand.Stdout options) /\
        corev1.Stderr o = notNil (remotecommand.Stderr options) /\
        corev1.TTY o = remotecommand.Tty options).
Proof.
  unfold setupAnswer. unfold_run. repeat answer; read_made; cbn; split;
    try (intros exec [=]; subst; reflexivity);
    try (intros exec options []; fail);
    intros exec options [[= <- <-] | []];
    eexists; (split; [reflexivity |]); repeat split.
Qed.

(** X4. [ExecPod] stops at the first call the library fails: every call it
    made but the last was answered without error, so at most one library
    error occurs in a run; and it fails only when the library does, a nil
    result being returned exactly when no library call failed.  Its first
    call is the log entry, and it logs once. *)
Theorem ExecPod_fails_fast :
  libraryErrors lib
    (removelast
       (made (ExecPod lib command stdin stdout stderr tty timeout) w)) = [] /\
  (returns (ExecPod lib command stdin stdout stderr tty timeout) w = None <->
   libraryErrors lib
     (made (ExecPod lib command stdin stdout stderr tty timeout) w) = []) /\
  (exists fields rest,
      made (ExecPod lib command stdin stdout stderr tty timeout) w =
        EvLog "sending exec request, command=%s, namespace=%S, pod=%s, container=%s"
              fields :: rest /\
      logCalls rest = []).
Proof.
  unfold_run. repeat answer; read_made; cbn [removelast];
    (split; [read_errors; reflexivity |]);
    (split; [| do 2 eexists; split; reflexivity]);
    read_errors; split; intros H; try reflexivity; discriminate.
Qed.

(** X5. The error [ExecPod] returns is a wrapper allocated by the call, at
    the address that was free, and matching through it is matching the
    library's error: for every target other than the new wrapper itself,
    [errors.Is] on the returned error answers what it answers on the
    library's error. *)
Theorem ExecPod_error_matches_as_library_error (e target : error) :
  returns (ExecPod lib command stdin stdout stderr tty timeout) w = Some e ->
  addrOf target <> heapNext w ->
  exists le,
    In le (libraryErrors lib
             (made (ExecPod lib command stdin stdout stderr tty timeout) w)) /\
    addrOf e = heapNext w /\
    heapNext (after (ExecPod lib command stdin stdout stderr tty timeout) w) =
      N.succ (heapNext w) /\
    errors.Is e target = errors.Is le target.
Proof.
  intros He Htarget.
  assert (Hfresh : forall msg le,
             errors.Is (wrapError (heapNext w) msg le) target =
             errors.Is le target).
  { intros msg le. cbn [errors.Is errors.eqb].
    destruct target as [q s | q s inner]; cbn [addrOf] in Htarget.
    - reflexivity.
    - apply N.eqb_neq in Htarget. rewrite N.eqb_sym, Htarget. reflexivity. }
  revert He. unfold_run. repeat answer; read_made;
    intros [= <-]; eexists;
    (split; [read_errors; left; reflexivity |]);
    (split; [reflexivity |]);
    (split; [reflexivity |]);
    apply Hfresh.
Qed.


End ExecPod_more.

(** ** What the operations read, and what they leave alone *)

Lemma ExecPod_calls_append lib command stdin stdout stderr tty timeout w :
  calls (after (ExecPod lib command stdin stdout stderr tty timeout) w) =
  (calls w ++ made (ExecPod lib command stdin stdout stderr tty timeout) w)%list.
Proof.
  unfold_run. repeat answer; read_made; rewrite <- ?app_assoc; reflexivity.
Qed.

Lemma CanExec_calls_append lib w :
  calls (after (CanExec lib) w) = (calls w ++ made (CanExec lib) w)%list.
Proof.
  unfold_run. answer.
  - destruct (authzv1.Allowed (authzv1.Status a)); simp_run.
    + read_made. rewrite <- ?app_assoc. reflexivity.
    + destruct (String.eqb (authzv1.Reason (authzv1.Status a)) ""); simp_run;
        read_made; rewrite <- ?app_assoc; reflexivity.
  - read_made. rewrite <- ?app_assoc. reflexivity.
Qed.

Lemma option_map_nil_iff {A B : Type} (f : A -> B) (x y : option A) :
  option_map f x = option_map f y -> (x = None <-> y = None).
Proof.
  destruct x, y; cbn; intros H; split; congruence.
Qed.

(** [ExecPod] reads the cluster configuration, the pod, the container and
    the namespace, and nothing else of the world but the free address its
    error is allocated at. *)
Lemma ExecPod_same_fields lib command stdin stdout stderr tty timeout w w' :
  K8sConfig (opt w) = K8sConfig (opt w') ->
  PodName (opt w) = PodName (opt w') ->
  ContainerName (opt w) = ContainerName (opt w') ->
  Namespace (opt w) = Namespace (opt w') ->
  made (ExecPod lib command stdin stdout stderr tty timeout) w =
  made (ExecPod lib command stdin stdout stderr tty timeout) w' /\
  option_map errors.Error
    (returns (ExecPod lib command stdin stdout stderr tty timeout) w) =
  option_map errors.Error
    (returns (ExecPod lib command stdin stdout stderr tty timeout) w') /\
  option_map errors.Unwrap
    (returns (ExecPod lib command stdin stdout stderr tty timeout) w) =
  option_map errors.Unwrap
    (returns (ExecPod lib command stdin stdout stderr tty timeout) w') /\
  (heapNext w = heapNext w' ->
   returns (ExecPod lib command stdin stdout stderr tty timeout) w =
   returns (ExecPod lib command stdin stdout stderr tty timeout) w').
Proof.
  destruct w as [[cfg pod ctr ns cc] h tr], w' as [[cfg' pod' ctr' ns' cc'] h' tr'].
  cbn [opt K8sConfig PodName ContainerName Namespace heapNext].
  intros <- <- <- <-.
  unfold_run. unfold execRequest.
  cbn [K8sConfig PodName ContainerName Namespace].
  repeat answer; read_made; repeat split; intros <-; reflexivity.
Qed.

Section Reads.

Variable lib : Library.
Variables w w' : World.
Variable command : list string.
Variable stdin : option io.Reader.
Variables stdout stderr : option io.Writer.
Variable tty : bool.
Variable timeout : time.Duration.

(** X7. [ExecPod] never reads [CurrentContext]: from two worlds whose
    clients agree on the cluster configuration, the pod, the container and
    the namespace it makes the same calls and returns the same result,
    whatever their contexts are. *)
Theorem ExecPod_ignores_CurrentContext :
  K8sConfig (opt w) = K8sConfig (opt w') ->
  PodName (opt w) = PodName (opt w') ->
  ContainerName (opt w) = ContainerName (opt w') ->
  Namespace (opt w) = Namespace (opt w') ->
  heapNext w = heapNext w' ->
  made (ExecPod lib command stdin stdout stderr tty timeout) w =
  made (ExecPod lib command stdin stdout stderr tty timeout) w' /\
  returns (ExecPod lib command stdin stdout stderr tty timeout) w =
  returns (ExecPod lib command stdin stdout stderr tty timeout) w'.
Proof.
  intros Hcfg Hpod Hctr Hns Hheap.
  destruct (ExecPod_same_fields lib command stdin stdout stderr tty timeout
              w w' Hcfg Hpod Hctr Hns) as (Hmade & _ & _ & Hret).
  split; [exact Hmade | exact (Hret Hheap)].
Qed.

(** X8. [CanExec] reads the namespace and nothing else of the client: from
    two worlds whose clients agree on the namespace it submits the same
    review and returns the same result, whatever the pod, the container,
    the cluster configuration and the context are. *)
Theorem CanExec_reads_namespace_only :
  Namespace (opt w) = Namespace (opt w') ->
  heapNext w = heapNext w' ->
  made (CanExec lib) w = made (CanExec lib) w' /\
  returns (CanExec lib) w = returns (CanExec lib) w'.
Proof.
  destruct w as [[cfg pod ctr ns cc] h tr], w' as [[cfg' pod' ctr' ns' cc'] h' tr'].
  cbn [opt Namespace heapNext]. intros <- <-.
  unfold_run. unfold selfAccessReview. cbn [Namespace].
  answer.
  - destruct (authzv1.Allowed (authzv1.Status a)); simp_run.
    + read_made. split; reflexivity.
    + destruct (String.eqb (authzv1.Reason (authzv1.Status a)) ""); simp_run;
        read_made; split; reflexivity.
  - read_made. split; reflexivity.
Qed.

End Reads.

Section CanExec_more.

Variable lib : Library.
Variable w : World.

(** X9. The calls of [CanExec], in order: the log entry that the check
    starts, the review, the log entry that confirms permission exactly
    when the result is nil, and last the cancellation of the context. *)
Theorem CanExec_trace :
  made (CanExec lib) w =
  ([EvLog "checking for exec permissions."
      [zap.String "namespace" (Namespace (opt w))];
    EvCreate canExecContext (selfAccessReview (opt w)) metav1.CreateOptions0]
   ++ match returns (CanExec lib) w with
      | None => [EvLog "confirmed exec permissions."
                   [zap.String "namespace" (Namespace (opt w))]]
      | Some _ => []
      end
   ++ [EvCancel canExecContext])%list.
Proof.
  unfold_run. answer.
  - destruct (authzv1.Allowed (authzv1.Status a)); simp_run.
    + read_made. reflexivity.
    + destruct (String.eqb (authzv1.Reason (authzv1.Status a)) ""); simp_run;
        read_made; reflexivity.
  - read_made. reflexivity.
Qed.

(** X10. [CanExec] returns nil only for a permission that was granted: its
    result is nil exactly when the cluster answered the review and the
    answer has [Allowed] true, whatever reason the answer carries. *)
Theorem CanExec_nil_iff_allowed :
  returns (CanExec lib) w = None <->
  exists response,
    reviewAnswer lib w = Ok response /\
    authzv1.Allowed (authzv1.Status response) = true.
Proof.
  unfold reviewAnswer. unfold_run. answer.
  - destruct (authzv1.Allowed (authzv1.Status a)) eqn:Hallowed; simp_run.
    + split; [| reflexivity]. intros _. exists a. split; [reflexivity | exact Hallowed].
    + destruct (String.eqb (authzv1.Reason (authzv1.Status a)) ""); simp_run;
        (split; [discriminate |]); intros (response & [= <-] & H); congruence.
  - split; [discriminate |]. intros (response & [=] & _).
Qed.

Variable command : list string.
Variable stdin : option io.Reader.
Variables stdout stderr : option io.Writer.
Variable tty : bool.
Variable timeout : time.Duration.

(** X11. [ExecPod] makes no authorization query and cancels no context,
    and [CanExec] sets up no transport, asks for no executor and opens no
    stream: the permission check and the execution share no library
    call. *)
Theorem operations_share_no_call :
  createCalls
    (made (ExecPod lib command stdin stdout stderr tty timeout) w) = [] /\
  cancelCalls
    (made (ExecPod lib command stdin stdout stderr tty timeout) w) = [] /\
  tlsCalls (made (CanExec lib) w) = [] /\
  wrapperCalls (made (CanExec lib) w) = [] /\
  executorCalls (made (CanExec lib) w) = [] /\
  streamCalls (made (CanExec lib) w) = [].
Proof.
  split; [| split].
  1-2: unfold_run; repeat answer; read_made; reflexivity.
  unfold_run. answer.
  - destruct (authzv1.Allowed (authzv1.Status a)); simp_run.
    + read_made. repeat split.
    + destruct (String.eqb (authzv1.Reason (authzv1.Status a)) ""); simp_run;
        read_made; repeat split.
  - read_made. repeat split.
Qed.

(** X12. [ExecPod] does not depend on a check made before it: run after
    [CanExec], whatever that returned, it makes the calls it makes without
    it and fails or succeeds alike, with the same message around the same
    library error; the trace then holds the calls of the check followed by
    those of the execution. *)
Theorem ExecPod_after_CanExec :
  made (ExecPod lib command stdin stdout stderr tty timeout)
       (after (CanExec lib) w) =
  made (ExecPod lib command stdin stdout stderr tty timeout) w /\
  (returns (ExecPod lib command stdin stdout stderr tty timeout)
           (after (CanExec lib) w) = None <->
   returns (ExecPod lib command stdin stdout stderr tty timeout) w = None) /\
  option_map errors.Error
    (returns (ExecPod lib command stdin stdout stderr tty timeout)
             (after (CanExec lib) w)) =
  option_map errors.Error
    (returns (ExecPod lib command stdin stdout stderr tty timeout) w) /\
  option_map errors.Unwrap
    (returns (ExecPod lib command stdin stdout stderr tty timeout)
             (after (CanExec lib) w)) =
  option_map errors.Unwrap
    (returns (ExecPod lib command stdin stdout stderr tty timeout) w) /\
  calls (after (ExecPod lib command stdin stdout stderr tty timeout)
               (after (CanExec lib) w)) =
  (calls w ++ made (CanExec lib) w ++
   made (ExecPod lib command stdin stdout stderr tty timeout) w)%list.
Proof.
  pose proof (CanExec_opt lib w) as Hopt.
  destruct (ExecPod_same_fields lib command stdin stdout stderr tty timeout
              (after (CanExec lib) w) w)
    as (Hmade & Hmsg & Hwrapped & _); try (rewrite Hopt; reflexivity).
  split; [exact Hmade |].
  split; [exact (option_map_nil_iff _ _ _ Hmsg) |].
  split; [exact Hmsg |].
  split; [exact Hwrapped |].
  rewrite ExecPod_calls_append, CanExec_calls_append, Hmade, app_assoc.
  reflexivity.
Qed.

End CanExec_more.

(** ** The further properties at concrete inputs *)

Lemma ExecPod_error_matches_as_library_error_witness :
  exists le,
    In le (libraryErrors fake.noTLS
             (made (ExecPod fake.noTLS ["ls"] None None None false 0%Z)
                   fake.world)) /\
    addrOf (wrapError 1%N
              "failed to set up executor: unable to load root certificates"
              fake.badCert) = heapNext fake.world /\
    heapNext (after (ExecPod fake.noTLS ["ls"] None None None false 0%Z)
                    fake.world) = N.succ (heapNext fake.world) /\
    errors.Is (wrapError 1%N
                 "failed to set up executor: unable to load root certificates"
                 fake.badCert) fake.badCert =
    errors.Is le fake.badCert.
Proof.
  apply (ExecPod_error_matches_as_library_error fake.noTLS fake.world
           ["ls"] None None None false 0%Z).
  - reflexivity.
  - discriminate.
Defined.

Lemma ExecPod_ignores_CurrentContext_witness :
  CurrentContext (opt fake.world) <> CurrentContext (opt scenario.prodWorld) /\
  made (ExecPod fake.breaking ["ls"] None None None false 0%Z) fake.world =
  made (ExecPod fake.breaking ["ls"] None None None false 0%Z) scenario.prodWorld /\
  returns (ExecPod fake.breaking ["ls"] None None None false 0%Z) fake.world =
  returns (ExecPod fake.breaking ["ls"] None None None false 0%Z) scenario.prodWorld.
Proof.
  split; [discriminate |].
  apply (ExecPod_ignores_CurrentContext fake.breaking fake.world
           scenario.prodWorld ["ls"] None None None false 0%Z);
    reflexivity.
Defined.

Lemma CanExec_reads_namespace_only_witness :
  PodName (opt fake.world) <> PodName (opt scenario.neighbourWorld) /\
  made (CanExec (fake.denying "RBAC: access denied")) fake.world =
  made (CanExec (fake.denying "RBAC: access denied")) scenario.neighbourWorld /\
  returns (CanExec (fake.denying "RBAC: access denied")) fake.world =
  returns (CanExec (fake.denying "RBAC: access denied")) scenario.neighbourWorld.
Proof.
  split; [discriminate |].
  apply (CanExec_reads_namespace_only (fake.denying "RBAC: access denied")
           fake.world scenario.neighbourWorld);
    reflexivity.
Defined.

Example RoundTripperFor_no_wrappers_run :
  runState (RoundTripperFor scenario.noWrappers fake.config) fake.world =
  (Err fake.unauthorized,
   {| opt := fake.clientOpt;
      heapNext := 1%N;
      calls :=
        [EvTLSConfigFor fake.config;
         EvHTTPWrappersForConfig fake.config
           (spdy.NewRoundTripperWithConfig
              {| spdy.TLS := None;
                 spdy.FollowRedirects := true;
                 spdy.RequireSameHostRedirects := false;
                 spdy.Proxier := http.ProxyFromEnvironment;
                 spdy.PingPeriod := 0%Z |})] |}).
Proof. reflexivity. Qed.
